(** * assignment1_code_sample_1.py: a shallow embedding

    The script reads a name from standard input, fetches a remote resource
    over HTTPS, inserts one row into a MySQL table and mails the name to an
    administrator.  Every step crosses a process boundary, so the embedding
    is a state-and-exception monad over an explicit world:

    - [Env] holds what the program cannot change: the file system, the remote
      endpoint, the database server's verdicts and the mail executable;
    - [State] holds what the run changes: the module global [db_config],
      unread standard input, the objects the libraries hand out (HTTP
      responses, connections, cursors), the committed rows and the trace of
      boundary crossings. *)

From Stdlib Require Import ZArith Ascii.
From Stdlib.Strings Require Import Byte.
From stdpp Require Import base list strings gmap.

Open Scope string_scope.
Open Scope list_scope.

(** ** Values, exceptions and events *)

(** The Python values that travel between the four steps.  An HTTP response
    is an object: the value is a reference into [responses]. *)
Inductive pyval : Type :=
| PyNone
| PyStr (s : string)
| PyBytes (b : list byte)
| PyResponse (h : nat).

(** The exceptions the modelled library calls raise. *)
Inductive exn : Type :=
| NameError (name : string)
| FileNotFoundError (path : string)
| JSONDecodeError
| EOFError
| URLError (url : string)
| HTTPError (url : string) (status : Z)
| DatabaseError (errno : Z)
| InterfaceError
| TypeError
| CalledProcessError (returncode : Z) (cmd : list string).

(** The spec's error taxonomy, by originating step. *)
Inductive err_class : Type :=
| ConfigLoadError | InputError | NetworkError | DatabaseErrorClass
| NotificationError | SpawnError | ProgramError.

Definition exn_class (e : exn) : err_class :=
  match e with
  | NameError _ | TypeError => ProgramError
  | FileNotFoundError p => if String.eqb p "mail" then SpawnError else ConfigLoadError
  | JSONDecodeError => ConfigLoadError
  | EOFError => InputError
  | URLError _ | HTTPError _ _ => NetworkError
  | DatabaseError _ | InterfaceError => DatabaseErrorClass
  | CalledProcessError _ _ => NotificationError
  end.

(** [ssl.create_default_context()]: certificate verification and host name
    checking against the platform's trust roots. *)
Inductive ssl_context : Type := DefaultContext.

(** One database record: the table it went to and, by column, the value
    given for the cell: a literal of the statement, or the Python value
    bound to a placeholder as [cursor.execute] received it.  What text the
    client library makes of a bound value (the quoting of a [str], the
    [str()] of an object it has no converter for) is not part of the
    model. *)
Record Row : Type := { row_table : string; row_cells : list (string * pyval) }.

Inductive event : Type :=
| EvOpen (path : string)
| EvFileClose (path : string)
| EvPrompt (prompt : string)
| EvHttpGet (url : string) (ctx : ssl_context)
| EvResponseClose (h : nat)
| EvConnect (cfg : gmap string string)
| EvCursor (c k : nat)
| EvExecute (k : nat) (query : string) (params : list pyval)
| EvCommit (c : nat)
| EvCursorClose (k : nat)
| EvConnectionClose (c : nat)
| EvSubprocessRun (argv : list string) (input : string)
| EvChildExit (returncode : Z) (stderr : string).

(** The four steps of the entry point, and the start-up load before them. *)
Inductive step : Type := Startup | Capture | Fetch | Persist | Notify.

Definition step_of (e : event) : step :=
  match e with
  | EvOpen _ | EvFileClose _ => Startup
  | EvPrompt _ => Capture
  | EvHttpGet _ _ | EvResponseClose _ => Fetch
  | EvConnect _ | EvCursor _ _ | EvExecute _ _ _ | EvCommit _
  | EvCursorClose _ | EvConnectionClose _ => Persist
  | EvSubprocessRun _ _ | EvChildExit _ _ => Notify
  end.

(** ** The world *)

(** What [db_config.json] holds: text that is not JSON, a JSON object (each
    member's value kept as its JSON text), or any other JSON document (an
    array, a string, a number, [true], [false], [null]). *)
Inductive file_content : Type :=
| NotJson
| JsonObject (m : gmap string string)
| JsonOther.

(** What [json.load] returned: a dict for a JSON object, and a value that is
    not a mapping for any other document. *)
Inductive config_value : Type :=
| ConfigDict (m : gmap string string)
| ConfigOther.

(** What the GET of a URL meets: no connection (name resolution, TCP or the
    TLS handshake fails), or a first reply with its status and body. *)
Inductive http_outcome : Type :=
| Unreachable
| HttpReply (status : Z) (body : list byte).

Record Env : Type := {
  (** [fs path]: the file at [path], if there is one. *)
  fs : string → option file_content;
  (** what a GET of the URL yields *)
  http : string → http_outcome;
  (** the server's refusals, as MySQL error numbers *)
  db_connect_err : gmap string string → option Z;
  db_execute_err : list Row → Row → option Z;
  db_commit_err : list Row → list Row → option Z;
  (** [exec argv input]: [None] when [argv]'s program is not on the search
      path, otherwise the child's exit status and what it wrote to stderr *)
  exec : list string → string → option (Z * string)
}.

Record Response : Type := { resp_body : list byte; resp_closed : bool }.
Record Connection : Type := { conn_open : bool; conn_pending : list Row }.
Record Cursor : Type := { cur_conn : nat; cur_open : bool }.

Record State : Type := {
  db_config : option config_value;
  stdin : list string;
  responses : list Response;
  connections : list Connection;
  cursors : list Cursor;
  db_rows : list Row;
  trace : list event
}.

Definition emit (e : event) (s : State) : State :=
  {| db_config := db_config s; stdin := stdin s; responses := responses s;
     connections := connections s; cursors := cursors s;
     db_rows := db_rows s; trace := trace s ++ [e] |}.

Definition set_db_config (v : config_value) (s : State) : State :=
  {| db_config := Some v; stdin := stdin s; responses := responses s;
     connections := connections s; cursors := cursors s;
     db_rows := db_rows s; trace := trace s |}.

Definition set_stdin (l : list string) (s : State) : State :=
  {| db_config := db_config s; stdin := l; responses := responses s;
     connections := connections s; cursors := cursors s;
     db_rows := db_rows s; trace := trace s |}.

Definition set_responses (l : list Response) (s : State) : State :=
  {| db_config := db_config s; stdin := stdin s; responses := l;
     connections := connections s; cursors := cursors s;
     db_rows := db_rows s; trace := trace s |}.

Definition set_connections (l : list Connection) (s : State) : State :=
  {| db_config := db_config s; stdin := stdin s; responses := responses s;
     connections := l; cursors := cursors s;
     db_rows := db_rows s; trace := trace s |}.

Definition set_cursors (l : list Cursor) (s : State) : State :=
  {| db_config := db_config s; stdin := stdin s; responses := responses s;
     connections := connections s; cursors := l;
     db_rows := db_rows s; trace := trace s |}.

Definition set_db_rows (l : list Row) (s : State) : State :=
  {| db_config := db_config s; stdin := stdin s; responses := responses s;
     connections := connections s; cursors := cursors s;
     db_rows := l; trace := trace s |}.

(** ** The monad: state plus Python exceptions *)

Inductive result (A : Type) : Type :=
| Return (a : A)
| Raise (e : exn).
Arguments Return {A} a.
Arguments Raise {A} e.

Definition Py (A : Type) : Type := State → result A * State.

Definition py_ret {A} (a : A) : Py A := λ s, (Return a, s).
Definition py_raise {A} (e : exn) : Py A := λ s, (Raise e, s).
Definition py_bind {A B} (k : A → Py B) (m : Py A) : Py B :=
  λ s, match m s with
       | (Return a, s1) => k a s1
       | (Raise e, s1) => (Raise e, s1)
       end.

Declare Scope py_scope.
Delimit Scope py_scope with py.
Notation "x ← y ; z" := (py_bind (λ x, z) y)
  (at level 20, y at level 100, z at level 200, only parsing) : py_scope.
Notation "x ;; z" := (py_bind (λ _, z) x)
  (at level 100, z at level 200, only parsing, right associativity) : py_scope.

Definition py_emit (e : event) : Py unit := λ s, (Return (), emit e s).

(** [with acquire as r: body]: [release] runs when the block is left, by a
    [return] as well as by an exception, and the exception goes on. *)
Definition py_with {R A} (acquire : Py R) (release : R → Py unit)
    (body : R → Py A) : Py A :=
  λ s, match acquire s with
       | (Raise e, s1) => (Raise e, s1)
       | (Return r, s1) =>
         match body r s1 with
         | (Return a, s2) =>
           match release r s2 with
           | (Return _, s3) => (Return a, s3)
           | (Raise e, s3) => (Raise e, s3)
           end
         | (Raise e, s2) => (Raise e, snd (release r s2))
         end
       end.

(** ** The database server's reading of a statement

    The server (with the client library's placeholder binding in front of it)
    is outside the repository; this is the fragment of SQL the script sends:
    [INSERT INTO t (c1, ..., cn) VALUES (v1, ..., vn)], each [vi] either the
    placeholder [%s], bound to the next parameter, or a quoted literal
    without quotes, commas or parentheses inside. *)

Fixpoint strip_prefix (p s : string) : option string :=
  match p, s with
  | EmptyString, _ => Some s
  | String a p', String b s' => if Ascii.eqb a b then strip_prefix p' s' else None
  | String _ _, EmptyString => None
  end.

(** [split_at c s]: the text before and after the first [c] of [s]. *)
Fixpoint split_at (c : ascii) (s : string) : option (string * string) :=
  match s with
  | EmptyString => None
  | String a s' =>
    if Ascii.eqb a c then Some (EmptyString, s')
    else match split_at c s' with
         | Some (u, v) => Some (String a u, v)
         | None => None
         end
  end.

Fixpoint split_on (c : ascii) (s : string) : list string :=
  match s with
  | EmptyString => [EmptyString]
  | String a s' =>
    if Ascii.eqb a c then EmptyString :: split_on c s'
    else match split_on c s' with
         | t :: ts => String a t :: ts
         | [] => [String a EmptyString]
         end
  end.

Fixpoint ltrim (s : string) : string :=
  match s with
  | String a s' => if Ascii.eqb a " " then ltrim s' else s
  | EmptyString => s
  end.

Definition csv (s : string) : list string := ltrim <$> split_on "," s.

Definition quoted (v : string) : option string :=
  match strip_prefix "'" v with
  | Some r => match split_at "'" r with
              | Some (lit, EmptyString) => Some lit
              | _ => None
              end
  | None => None
  end.

Fixpoint bind_values (vals : list string) (params : list pyval) : option (list pyval) :=
  match vals with
  | [] => match params with [] => Some [] | _ :: _ => None end
  | v :: vs =>
    if String.eqb v "%s" then
      match params with
      | p :: ps => cons p <$> bind_values vs ps
      | [] => None
      end
    else
      match quoted v with
      | Some lit => cons (PyStr lit) <$> bind_values vs params
      | None => None
      end
  end.

Definition sql_insert (query : string) (params : list pyval) : option Row :=
  s0 ← strip_prefix "INSERT INTO " query;
  '(tbl, s1) ← split_at " " s0;
  s2 ← strip_prefix "(" s1;
  '(cols, s3) ← split_at ")" s2;
  s4 ← strip_prefix " VALUES (" s3;
  '(vals, s5) ← split_at ")" s4;
  match s5 with
  | EmptyString =>
    vs ← bind_values (csv vals) params;
    if Nat.eqb (length (csv cols)) (length vs)
    then Some {| row_table := tbl; row_cells := zip (csv cols) vs |}
    else None
  | String _ _ => None
  end.

(** ** The library calls the script makes *)

Section Program.

Variable env : Env.

Local Open Scope py_scope.

(** *** Builtins, [json], [urllib], [ssl] *)

Definition py_open (path : string) : Py (string * file_content) :=
  py_emit (EvOpen path);;
  match fs env path with
  | None => py_raise (FileNotFoundError path)
  | Some c => py_ret (path, c)
  end.

Definition file_close (f : string * file_content) : Py unit :=
  py_emit (EvFileClose f.1).

Definition json_load (f : string * file_content) : Py config_value :=
  match f.2 with
  | NotJson => py_raise JSONDecodeError
  | JsonObject m => py_ret (ConfigDict m)
  | JsonOther => py_ret ConfigOther
  end.

Definition py_input (prompt : string) : Py string :=
  py_emit (EvPrompt prompt);;
  λ s, match stdin s with
       | [] => (Raise EOFError, s)
       | l :: rest => (Return l, set_stdin rest s)
       end.

Definition ssl_create_default_context : ssl_context := DefaultContext.

(** [urlopen(url=..., context=...)] acting on the first reply: a response
    object for a success, [HTTPError] for any other status, [URLError] when
    there is no reply.  The further requests [urllib] makes on a redirect
    reply are not part of the model; see [final_reply]. *)
Definition urlopen (url : string) (context : ssl_context) : Py nat :=
  py_emit (EvHttpGet url context);;
  match http env url with
  | Unreachable => py_raise (URLError url)
  | HttpReply status body =>
    if (200 <=? status)%Z && (status <? 300)%Z then
      λ s, (Return (length (responses s)),
            set_responses
              (responses s ++ [{| resp_body := body; resp_closed := false |}]) s)
    else py_raise (HTTPError url status)
  end.

Definition response_close (h : nat) : Py unit :=
  py_emit (EvResponseClose h);;
  λ s, match responses s !! h with
       | Some r =>
         (Return (),
          set_responses
            (<[h := {| resp_body := resp_body r; resp_closed := true |}]>
               (responses s)) s)
       | None => (Return (), s)
       end.

(** [HTTPResponse.read()]: the body while the response is open, and the
    empty bytes once it is closed. *)
Definition response_read (h : nat) (s : State) : list byte :=
  match responses s !! h with
  | Some r => if resp_closed r then [] else resp_body r
  | None => []
  end.

Definition response_readable (h : nat) (s : State) : bool :=
  match responses s !! h with
  | Some r => negb (resp_closed r)
  | None => false
  end.

(** *** [pymysql] *)

(** [pymysql.connect] with keyword arguments [cfg]: [db_connect_err] is the
    error number with which the connection fails, if it does.  Arguments
    the client library itself refuses, before it contacts a server, are not
    part of the model. *)
Definition pymysql_connect (cfg : gmap string string) : Py nat :=
  py_emit (EvConnect cfg);;
  match db_connect_err env cfg with
  | Some errno => py_raise (DatabaseError errno)
  | None =>
    λ s, (Return (length (connections s)),
          set_connections
            (connections s ++ [{| conn_open := true; conn_pending := [] |}]) s)
  end.

Definition connection_cursor (c : nat) : Py nat :=
  k ← (λ s, (Return (length (cursors s)),
              set_cursors (cursors s ++ [{| cur_conn := c; cur_open := true |}]) s));
  py_emit (EvCursor c k);;
  py_ret k.

Definition cursor_execute (k : nat) (query : string) (params : list pyval) : Py unit :=
  py_emit (EvExecute k query params);;
  λ s, match cursors s !! k with
       | None => (Raise InterfaceError, s)
       | Some cur =>
         match connections s !! cur_conn cur with
         | None => (Raise InterfaceError, s)
         | Some cn =>
           if cur_open cur && conn_open cn then
             match sql_insert query params with
             | None => (Raise (DatabaseError 1064), s)
             | Some row =>
               match db_execute_err env (db_rows s) row with
               | Some errno => (Raise (DatabaseError errno), s)
               | None =>
                 (Return (),
                  set_connections
                    (<[cur_conn cur := {| conn_open := true;
                                          conn_pending := conn_pending cn ++ [row] |}]>
                       (connections s)) s)
               end
             end
           else (Raise InterfaceError, s)
         end
       end.

Definition connection_commit (c : nat) : Py unit :=
  py_emit (EvCommit c);;
  λ s, match connections s !! c with
       | None => (Raise InterfaceError, s)
       | Some cn =>
         if conn_open cn then
           match db_commit_err env (db_rows s) (conn_pending cn) with
           | Some errno => (Raise (DatabaseError errno), s)
           | None =>
             (Return (),
              set_db_rows (db_rows s ++ conn_pending cn)
                (set_connections
                   (<[c := {| conn_open := true; conn_pending := [] |}]>
                      (connections s)) s))
           end
         else (Raise InterfaceError, s)
       end.

Definition cursor_close (k : nat) : Py unit :=
  py_emit (EvCursorClose k);;
  λ s, match cursors s !! k with
       | Some cur =>
         (Return (),
          set_cursors (<[k := {| cur_conn := cur_conn cur; cur_open := false |}]>
                         (cursors s)) s)
       | None => (Return (), s)
       end.

(** Closing drops what was executed and not committed. *)
Definition connection_close (c : nat) : Py unit :=
  py_emit (EvConnectionClose c);;
  λ s, match connections s !! c with
       | Some cn =>
         if conn_open cn then
           (Return (),
            set_connections
              (<[c := {| conn_open := false; conn_pending := [] |}]>
                 (connections s)) s)
         else (Raise InterfaceError, s)
       | None => (Raise InterfaceError, s)
       end.

(** *** [subprocess] *)

(** [subprocess.run(argv, input=..., text=True, check=...)]: the call
    returns when the child has exited; the child's stderr is not captured.
    The arguments are taken to be ones a process can be started with (no
    NUL character, see [contains_nul]). *)
Definition subprocess_run (argv : list string) (input : string) (check : bool) : Py Z :=
  py_emit (EvSubprocessRun argv input);;
  match exec env argv input with
  | None => py_raise (FileNotFoundError (hd "" argv))
  | Some (returncode, err) =>
    py_emit (EvChildExit returncode err);;
    if check && negb (returncode =? 0)%Z
    then py_raise (CalledProcessError returncode argv)
    else py_ret returncode
  end.

(** ** The script *)

(** The module global [db_config]; reading it before the assignment is a
    [NameError]. *)
Definition global_db_config : Py config_value :=
  λ s, match db_config s with
       | Some v => (Return v, s)
       | None => (Raise (NameError "db_config"), s)
       end.

Definition assign_db_config (v : config_value) : Py unit :=
  λ s, (Return (), set_db_config v s).

(** Double-star unpacking of [v] at a call: the keyword arguments the call
    receives; a [TypeError] at the call when [v] is not a mapping. *)
Definition unpack_kwargs (v : config_value) : Py (gmap string string) :=
  match v with
  | ConfigDict m => py_ret m
  | ConfigOther => py_raise TypeError
  end.

(** Lines 9-10, at module level. *)
Definition load_db_config : Py unit :=
  py_with (py_open "db_config.json") file_close
    (λ data, v ← json_load data; assign_db_config v).

Definition get_user_input : Py string :=
  user_input ← py_input "Enter your name: ";
  py_ret user_input.

Definition send_email (to subject body : string) : Py unit :=
  subprocess_run ["mail"; "-s"; subject; to] body true;;
  py_ret ().

Definition get_data : Py pyval :=
  let url := "https://insecure-api.com/get-data" in
  let context := ssl_create_default_context in
  py_with (urlopen url context) response_close
    (λ data, py_ret (PyResponse data)).

Definition save_to_db (data : pyval) : Py unit :=
  let query := "INSERT INTO mytable (column1, column2) VALUES (%s, 'Another Value')" in
  cfg ← global_db_config;
  kwargs ← unpack_kwargs cfg;
  connection ← pymysql_connect kwargs;
  cursor ← connection_cursor connection;
  cursor_execute cursor query [data];;
  connection_commit connection;;
  cursor_close cursor;;
  connection_close connection.

Definition main : Py unit :=
  user_input ← get_user_input;
  data ← get_data;
  save_to_db data;;
  send_email "admin@example.com" "User Input" user_input.

(** The whole run: the module body, then the [__main__] block. *)
Definition script : Py unit :=
  load_db_config;;
  main.

End Program.

Definition QUERY : string :=
  "INSERT INTO mytable (column1, column2) VALUES (%s, 'Another Value')".
Definition URL : string := "https://insecure-api.com/get-data".
Definition MAIL_ARGV : list string := ["mail"; "-s"; "User Input"; "admin@example.com"].


(** ** Observations on runs *)

Definition emit_all (l : list event) (s : State) : State :=
  {| db_config := db_config s; stdin := stdin s; responses := responses s;
     connections := connections s; cursors := cursors s;
     db_rows := db_rows s; trace := trace s ++ l |}.

(** The events a computation added when it took [s] to [s']. *)
Definition new_events (s s' : State) : list event :=
  drop (length (trace s)) (trace s').

Definition is_connection_close (e : event) : bool :=
  match e with EvConnectionClose _ => true | _ => false end.
Definition is_cursor_close (e : event) : bool :=
  match e with EvCursorClose _ => true | _ => false end.
Definition is_http_get (e : event) : bool :=
  match e with EvHttpGet _ _ => true | _ => false end.
Definition is_notify (e : event) : bool :=
  match step_of e with Notify => true | _ => false end.

Definition count (p : event → bool) (l : list event) : nat :=
  length (List.filter p l).

(** The statements sent to the server: query text and bound parameters. *)
Fixpoint executed (l : list event) : list (string * list pyval) :=
  match l with
  | [] => []
  | EvExecute _ q ps :: l' => (q, ps) :: executed l'
  | _ :: l' => executed l'
  end.

(** The message bodies handed to a child process. *)
Fixpoint mail_bodies (l : list event) : list (list string * string) :=
  match l with
  | [] => []
  | EvSubprocessRun argv body :: l' => (argv, body) :: mail_bodies l'
  | _ :: l' => mail_bodies l'
  end.

Definition step_eqb (a b : step) : bool :=
  match a, b with
  | Startup, Startup | Capture, Capture | Fetch, Fetch
  | Persist, Persist | Notify, Notify => true
  | _, _ => false
  end.

(** The steps of a trace in the order they ran, a run of events of one step
    counted once. *)
Fixpoint phases (l : list event) : list step :=
  match l with
  | [] => []
  | e :: l' =>
    match phases l' with
    | p :: ps => if step_eqb (step_of e) p then p :: ps else step_of e :: p :: ps
    | [] => [step_of e]
    end
  end.


(** The row the script's statement stands for. *)
Definition inserted_row (data : pyval) : Row :=
  {| row_table := "mytable";
     row_cells := [("column1", data); ("column2", PyStr "Another Value")] |}.

(** The configuration records connections were asked for with. *)
Fixpoint connects (l : list event) : list (gmap string string) :=
  match l with
  | [] => []
  | EvConnect cfg :: l' => cfg :: connects l'
  | _ :: l' => connects l'
  end.




(** ** Concrete worlds *)

Definition sample_config : gmap string string :=
  {[ "host" := "localhost"; "user" := "app"; "database" := "appdb" ]}.

Definition hello : list byte := [x68; x65; x6c; x6c; x6f].

(** Everything works: the file is there, the endpoint answers 200 with
    [body], the server accepts, [mail] exits 0. *)
Definition env_ok (body : list byte) : Env :=
  {| fs := λ p, if String.eqb p "db_config.json"
                then Some (JsonObject sample_config) else None;
     http := λ _, HttpReply 200 body;
     db_connect_err := λ _, None;
     db_execute_err := λ _ _, None;
     db_commit_err := λ _ _, None;
     exec := λ _ _, Some (0%Z, "") |}.

(** The server refuses the statement (1062: duplicate entry). *)
Definition env_execute_fails : Env :=
  {| fs := fs (env_ok []); http := http (env_ok []);
     db_connect_err := λ _, None;
     db_execute_err := λ _ _, Some 1062%Z;
     db_commit_err := λ _ _, None;
     exec := exec (env_ok []) |}.

(** The server refuses the connection (1045: access denied). *)
Definition env_connect_fails : Env :=
  {| fs := fs (env_ok []); http := http (env_ok []);
     db_connect_err := λ _, Some 1045%Z;
     db_execute_err := λ _ _, None;
     db_commit_err := λ _ _, None;
     exec := exec (env_ok []) |}.

(** [mail] is not on the search path. *)
Definition env_no_mail : Env :=
  {| fs := fs (env_ok []); http := http (env_ok []);
     db_connect_err := λ _, None;
     db_execute_err := λ _ _, None;
     db_commit_err := λ _ _, None;
     exec := λ _ _, None |}.

(** [mail] exits with status 1 and a diagnostic on stderr. *)
Definition env_mail_fails : Env :=
  {| fs := fs (env_ok []); http := http (env_ok []);
     db_connect_err := λ _, None;
     db_execute_err := λ _ _, None;
     db_commit_err := λ _ _, None;
     exec := λ _ _, Some (1%Z, "mail: cannot send message") |}.

(** Process start, with [lines] waiting on standard input. *)
Definition start (lines : list string) : State :=
  {| db_config := None; stdin := lines; responses := []; connections := [];
     cursors := []; db_rows := []; trace := [] |}.

(** After the module body has run in [env_ok]. *)
Definition loaded (lines : list string) : State :=
  set_db_config (ConfigDict sample_config) (start lines).


(** The endpoint answers 404. *)
Definition env_not_found : Env :=
  {| fs := fs (env_ok []); http := λ _, HttpReply 404 [];
     db_connect_err := λ _, None;
     db_execute_err := λ _ _, None;
     db_commit_err := λ _ _, None;
     exec := exec (env_ok []) |}.

(** The server refuses the commit (1213: deadlock). *)
Definition env_commit_fails : Env :=
  {| fs := fs (env_ok []); http := http (env_ok []);
     db_connect_err := λ _, None;
     db_execute_err := λ _ _, None;
     db_commit_err := λ _ _, Some 1213%Z;
     exec := exec (env_ok []) |}.

(** * Properties *)

(** ** The server's reading of the script's statement *)

Lemma sql_insert_QUERY (v : pyval) : sql_insert QUERY [v] = Some (inserted_row v).
Proof. reflexivity. Qed.

(** ** Lists of objects *)

Lemma lookup_fresh {A} (l : list A) (x : A) : (l ++ [x]) !! length l = Some x.
Proof. by apply list_lookup_middle. Qed.

Lemma insert_fresh {A} (l : list A) (x y : A) : <[length l := y]> (l ++ [x]) = l ++ [y].
Proof.
  rewrite insert_app_r_alt by lia. by rewrite Nat.sub_diag.
Qed.

Lemma new_events_app (s s' : State) (l : list event) :
  trace s' = trace s ++ l → new_events s s' = l.
Proof. intros H. unfold new_events. rewrite H. by rewrite drop_app_length. Qed.

(** ** Equality of states, field by field *)

Lemma state_ext (s1 s2 : State) :
  db_config s1 = db_config s2 → stdin s1 = stdin s2 →
  responses s1 = responses s2 → connections s1 = connections s2 →
  cursors s1 = cursors s2 → db_rows s1 = db_rows s2 → trace s1 = trace s2 →
  s1 = s2.
Proof. destruct s1, s2. simpl. by intros -> -> -> -> -> -> ->. Qed.

(** Proves [(r, s1) = (r, s2)] from the seven fields of the states. *)
Ltac same_outcome :=
  f_equal; apply state_ext; simpl; rewrite <- ?app_assoc; reflexivity.

(** ** What each function does, path by path *)

Lemma get_user_input_unfold s :
  get_user_input s =
  match stdin s with
  | [] => (Raise EOFError, emit (EvPrompt "Enter your name: ") s)
  | u :: rest => (Return u, set_stdin rest (emit (EvPrompt "Enter your name: ") s))
  end.
Proof.
  unfold get_user_input, py_input, py_bind, py_emit, py_ret. simpl.
  by destruct (stdin s).
Qed.

Lemma send_email_unfold env to subject body s :
  send_email env to subject body s =
  let argv := ["mail"; "-s"; subject; to] in
  match exec env argv body with
  | None => (Raise (FileNotFoundError "mail"), emit (EvSubprocessRun argv body) s)
  | Some (rc, err) =>
    (if (rc =? 0)%Z then Return () else Raise (CalledProcessError rc argv),
     emit_all [EvSubprocessRun argv body; EvChildExit rc err] s)
  end.
Proof.
  unfold send_email, subprocess_run, py_bind, py_emit, py_ret, py_raise. simpl.
  destruct (exec env _ body) as [[rc err]|]; [|done].
  destruct (rc =? 0)%Z; simpl; same_outcome.
Qed.

Lemma get_data_unfold env s :
  get_data env s =
  let h := length (responses s) in
  match http env URL with
  | Unreachable => (Raise (URLError URL), emit (EvHttpGet URL DefaultContext) s)
  | HttpReply status body =>
    if (200 <=? status)%Z && (status <? 300)%Z then
      (Return (PyResponse h),
       set_responses (responses s ++ [{| resp_body := body; resp_closed := true |}])
         (emit_all [EvHttpGet URL DefaultContext; EvResponseClose h] s))
    else (Raise (HTTPError URL status), emit (EvHttpGet URL DefaultContext) s)
  end.
Proof.
  unfold get_data, py_with, urlopen, response_close, py_bind, py_emit, py_ret, py_raise.
  fold URL. simpl.
  destruct (http env URL) as [|status body]; [done|].
  destruct ((200 <=? status)%Z && (status <? 300)%Z); [|done].
  simpl. rewrite lookup_fresh. simpl. rewrite insert_fresh.
  same_outcome.
Qed.

Lemma save_to_db_unfold env data s :
  save_to_db env data s =
  match db_config s with
  | None => (Raise (NameError "db_config"), s)
  | Some ConfigOther => (Raise TypeError, s)
  | Some (ConfigDict cfg) =>
    let c := length (connections s) in
    let k := length (cursors s) in
    let row := inserted_row data in
    match db_connect_err env cfg with
    | Some errno => (Raise (DatabaseError errno), emit (EvConnect cfg) s)
    | None =>
      match db_execute_err env (db_rows s) row with
      | Some errno =>
        (Raise (DatabaseError errno),
         set_connections (connections s ++ [{| conn_open := true; conn_pending := [] |}])
           (set_cursors (cursors s ++ [{| cur_conn := c; cur_open := true |}])
              (emit_all [EvConnect cfg; EvCursor c k; EvExecute k QUERY [data]] s)))
      | None =>
        match db_commit_err env (db_rows s) [row] with
        | Some errno =>
          (Raise (DatabaseError errno),
           set_connections (connections s ++ [{| conn_open := true; conn_pending := [row] |}])
             (set_cursors (cursors s ++ [{| cur_conn := c; cur_open := true |}])
                (emit_all [EvConnect cfg; EvCursor c k; EvExecute k QUERY [data];
                           EvCommit c] s)))
        | None =>
          (Return (),
           set_db_rows (db_rows s ++ [row])
             (set_connections
                (connections s ++ [{| conn_open := false; conn_pending := [] |}])
                (set_cursors (cursors s ++ [{| cur_conn := c; cur_open := false |}])
                   (emit_all [EvConnect cfg; EvCursor c k; EvExecute k QUERY [data];
                              EvCommit c; EvCursorClose k; EvConnectionClose c] s))))
        end
      end
    end
  end.
Proof.
  destruct s as [cfg inp rs cs ks rows tr].
  unfold save_to_db, global_db_config, unpack_kwargs, pymysql_connect,
    connection_cursor, cursor_execute, connection_commit, cursor_close,
    connection_close, py_bind, py_emit, py_ret, py_raise.
  fold QUERY. simpl.
  destruct cfg as [[cfg|]|]; [|done|done]. simpl.
  destruct (db_connect_err env cfg); [done|]. simpl.
  rewrite !lookup_fresh. simpl. rewrite !lookup_fresh. simpl.
  fold (inserted_row data).
  destruct (db_execute_err env rows (inserted_row data)); [same_outcome|].
  simpl. rewrite !insert_fresh. simpl. rewrite !lookup_fresh. simpl.
  destruct (db_commit_err env rows [inserted_row data]); [same_outcome|].
  simpl. rewrite !lookup_fresh, !insert_fresh. simpl.
  rewrite !lookup_fresh, !insert_fresh. simpl.
  same_outcome.
Qed.

Lemma load_db_config_unfold env s :
  load_db_config env s =
  match fs env "db_config.json" with
  | None => (Raise (FileNotFoundError "db_config.json"), emit (EvOpen "db_config.json") s)
  | Some NotJson =>
    (Raise JSONDecodeError,
     emit_all [EvOpen "db_config.json"; EvFileClose "db_config.json"] s)
  | Some (JsonObject m) =>
    (Return (),
     set_db_config (ConfigDict m)
       (emit_all [EvOpen "db_config.json"; EvFileClose "db_config.json"] s))
  | Some JsonOther =>
    (Return (),
     set_db_config ConfigOther
       (emit_all [EvOpen "db_config.json"; EvFileClose "db_config.json"] s))
  end.
Proof.
  unfold load_db_config, py_with, py_open, file_close, json_load,
    assign_db_config, py_bind, py_emit, py_ret, py_raise. simpl.
  destruct (fs env "db_config.json") as [[|m|]|]; simpl; [| | |done];
    same_outcome.
Qed.

Lemma new_events_same (s : State) : new_events s s = [].
Proof. apply new_events_app. by rewrite app_nil_r. Qed.



(** Rewrites [new_events s s'] to the list [s'] appended to the trace of [s]. *)
Ltac events :=
  repeat match goal with
         | |- context [new_events ?s ?s'] =>
           first [ rewrite (new_events_same s)
                 | erewrite (new_events_app s s')
                     by (simpl;
                         first [ reflexivity
                               | rewrite <- !app_assoc; simpl; reflexivity ]) ]
         end.

(** The statements one call of [save_to_db] sends: none when the connection
    is not made, otherwise the one fixed text with the value bound. *)
Lemma save_to_db_executed env data s :
  executed (new_events s (save_to_db env data s).2) =
  match db_config s with
  | Some (ConfigDict cfg) =>
    match db_connect_err env cfg with
    | None => [(QUERY, [data])]
    | Some _ => []
    end
  | _ => []
  end.
Proof.
  rewrite save_to_db_unfold.
  destruct (db_config s) as [[cfg|]|]; simpl; [|by events|by events].
  destruct (db_connect_err env cfg); simpl; [by events|].
  destruct (db_execute_err env _ _); simpl; [by events|].
  destruct (db_commit_err env _ _); simpl; by events.
Qed.

(** ** Persistence: connections and cursors *)

(** C1, as the spec states it, fails: when the server refuses the statement,
    [save_to_db] raises with its connection still open and no close call
    made, for the cursor or for the connection. *)
Lemma save_to_db_execute_error_skips_close :
  (save_to_db env_execute_fails (PyBytes []) (loaded [])).1
    = Raise (DatabaseError 1062) ∧
  count is_connection_close
    (new_events (loaded []) (save_to_db env_execute_fails (PyBytes []) (loaded [])).2) = 0 ∧
  count is_cursor_close
    (new_events (loaded []) (save_to_db env_execute_fails (PyBytes []) (loaded [])).2) = 0 ∧
  conn_open <$> connections (save_to_db env_execute_fails (PyBytes []) (loaded [])).2 !! 0
    = Some true.
Proof. vm_compute. done. Qed.

(** C1 (amended): a call of [save_to_db] opens at most one connection.  When
    it returns, it has opened exactly one, and closed the cursor and then the
    connection, once each, as its last two actions; both are closed in the
    final state.  When it raises (no configuration, connect, execute or
    commit failing), it has made no close call at all. *)
Theorem save_to_db_closes_once_on_return env data s :
  let r := (save_to_db env data s).1 in
  let s' := (save_to_db env data s).2 in
  let ev := new_events s s' in
  let c := length (connections s) in
  let k := length (cursors s) in
  match r with
  | Return _ =>
    length (connections s') = S c ∧
    count is_connection_close ev = 1 ∧
    count is_cursor_close ev = 1 ∧
    (∃ before, ev = before ++ [EvCursorClose k; EvConnectionClose c]) ∧
    conn_open <$> connections s' !! c = Some false ∧
    cur_open <$> cursors s' !! k = Some false
  | Raise _ =>
    (length (connections s') ≤ S c)%nat ∧
    count is_connection_close ev = 0 ∧
    count is_cursor_close ev = 0
  end.
Proof.
  simpl. rewrite save_to_db_unfold.
  destruct (db_config s) as [[cfg|]|]; simpl;
    [|events; auto with lia|events; auto with lia].
  destruct (db_connect_err env cfg); simpl; [events; auto with lia|].
  destruct (db_execute_err env _ _); simpl.
  { events. rewrite length_app. simpl. repeat split; lia. }
  destruct (db_commit_err env _ _); simpl.
  { events. rewrite length_app. simpl. repeat split; lia. }
  events. rewrite length_app, !lookup_fresh. simpl.
  repeat split; try lia.
  by exists [EvConnect cfg; EvCursor (length (connections s)) (length (cursors s));
             EvExecute (length (cursors s)) QUERY [data];
             EvCommit (length (connections s))].
Qed.

(** The return branch is taken: in a world where the server accepts, the
    call returns. *)
Example save_to_db_returns :
  (save_to_db (env_ok []) (PyBytes []) (loaded [])).1 = Return ().
Proof. vm_compute. reflexivity. Qed.

(** ** Persistence: the query text *)

(** C2: for every text [input], the empty one and those with SQL
    metacharacters included, the statements [save_to_db] sends are at most
    one, with the constant [QUERY] as text and [input] as the only bound
    parameter; the text sent is the same for any two inputs. *)
Theorem save_to_db_query_is_constant env (input : string) s :
  executed (new_events s (save_to_db env (PyStr input) s).2) =
    match db_config s with
    | Some (ConfigDict cfg) =>
      match db_connect_err env cfg with
      | None => [(QUERY, [PyStr input])]
      | Some _ => []
      end
    | _ => []
    end ∧
  ∀ other : string,
    (executed (new_events s (save_to_db env (PyStr input) s).2)).*1
    = (executed (new_events s (save_to_db env (PyStr other) s).2)).*1.
Proof.
  split; [apply save_to_db_executed|].
  intros other. rewrite !save_to_db_executed.
  destruct (db_config s) as [[cfg|]|]; [|done|done].
  by destruct (db_connect_err env cfg).
Qed.

(** A text with SQL metacharacters goes out as a parameter, the query text
    unchanged. *)
Example save_to_db_injection_attempt :
  executed (new_events (loaded [])
              (save_to_db (env_ok []) (PyStr "x'); DROP TABLE mytable; --") (loaded [])).2)
  = [(QUERY, [PyStr "x'); DROP TABLE mytable; --"])].
Proof. vm_compute. reflexivity. Qed.

(** ** Remote fetch *)

(** C3: when the endpoint answers with a success status, [get_data] makes
    one GET of the fixed URL under the default TLS context and returns the
    response object; the [with] block has closed that object by then, so
    the caller can no longer read [body] from it. *)
Theorem get_data_returns_closed_response env s status body :
  http env URL = HttpReply status body →
  (200 ≤ status < 300)%Z →
  let h := length (responses s) in
  let s' := (get_data env s).2 in
  (get_data env s).1 = Return (PyResponse h) ∧
  new_events s s' = [EvHttpGet URL DefaultContext; EvResponseClose h] ∧
  count is_http_get (new_events s s') = 1 ∧
  responses s' !! h = Some {| resp_body := body; resp_closed := true |} ∧
  response_readable h s' = false ∧
  response_read h s' = [].
Proof.
  intros Hhttp Hok. simpl. rewrite get_data_unfold. simpl. rewrite Hhttp.
  replace ((200 <=? status)%Z && (status <? 300)%Z) with true
    by (symmetry; apply andb_true_iff; lia).
  simpl. events. unfold response_readable, response_read. simpl.
  by rewrite lookup_fresh.
Qed.

(** The endpoint answers 200 with the five bytes of [hello]: the handle
    [get_data] returns reads as empty. *)
Lemma get_data_returns_closed_response_witness :
  http (env_ok hello) URL = HttpReply 200 hello ∧
  (get_data (env_ok hello) (start [])).1 = Return (PyResponse 0) ∧
  response_readable 0 (get_data (env_ok hello) (start [])).2 = false ∧
  response_read 0 (get_data (env_ok hello) (start [])).2 = [].
Proof.
  split; [vm_compute; reflexivity|].
  destruct (get_data_returns_closed_response (env_ok hello) (start []) 200 hello)
    as (Hr & _ & _ & _ & Hreadable & Hread); [vm_compute; reflexivity | lia |].
  exact (conj Hr (conj Hreadable Hread)).
Defined.

(** ** Notification *)

(** C7: [send_email] returns only after the child has exited; whatever the
    child wrote to stderr, a non-zero exit status raises
    [CalledProcessError] and status zero returns. *)
Theorem send_email_checks_exit_status env to subject body s rc err :
  exec env ["mail"; "-s"; subject; to] body = Some (rc, err) →
  let r := (send_email env to subject body s).1 in
  let s' := (send_email env to subject body s).2 in
  new_events s s' =
    [EvSubprocessRun ["mail"; "-s"; subject; to] body; EvChildExit rc err] ∧
  (rc ≠ 0%Z →
   r = Raise (CalledProcessError rc ["mail"; "-s"; subject; to]) ∧
   exn_class (CalledProcessError rc ["mail"; "-s"; subject; to]) = NotificationError) ∧
  (rc = 0%Z → r = Return ()).
Proof.
  intros Hexec. simpl. rewrite send_email_unfold. simpl. rewrite Hexec. simpl.
  events. split; [done|]. split.
  - intros Hrc. by apply Z.eqb_neq in Hrc as ->.
  - by intros ->.
Qed.

(** [mail] exits 1 with a diagnostic on stderr. *)
Lemma send_email_checks_exit_status_witness :
  exec env_mail_fails MAIL_ARGV "bob" = Some (1%Z, "mail: cannot send message") ∧
  (send_email env_mail_fails "admin@example.com" "User Input" "bob" (loaded [])).1
    = Raise (CalledProcessError 1 MAIL_ARGV).
Proof.
  split; [vm_compute; reflexivity|].
  destruct (send_email_checks_exit_status env_mail_fails "admin@example.com"
              "User Input" "bob" (loaded []) 1 "mail: cannot send message")
    as (_ & Hfail & _); [vm_compute; reflexivity|].
  apply Hfail. lia.
Defined.

(** ** The entry point *)

Lemma status_ok (status : Z) :
  (200 ≤ status < 300)%Z → (200 <=? status)%Z && (status <? 300)%Z = true.
Proof. intros H. apply andb_true_iff. lia. Qed.



(** [send_email] touches nothing but the trace, and adds only its own
    events to it. *)
Lemma send_email_frame env to subject body s :
  let s' := (send_email env to subject body s).2 in
  db_config s' = db_config s ∧ stdin s' = stdin s ∧ responses s' = responses s ∧
  connections s' = connections s ∧ cursors s' = cursors s ∧ db_rows s' = db_rows s ∧
  ∃ l, trace s' = trace s ++ l ∧ forallb is_notify l = true ∧
       executed l = [] ∧
       (mail_bodies l = [(["mail"; "-s"; subject; to], body)]).
Proof.
  simpl. rewrite send_email_unfold. simpl.
  destruct (exec env _ body) as [[rc err]|]; simpl; repeat split; by eexists.
Qed.



(** C4: when [main] returns, it ran capture, fetch, persistence and
    notification in that order, each from the state the one before left:
    the events of the run are those of the four calls one after the other,
    and every step has events of its own. *)
Theorem main_runs_four_steps_in_order env s s' :
  main env s = (Return (), s') →
  ∃ u s1 d s2 s3,
    get_user_input s = (Return u, s1) ∧
    get_data env s1 = (Return d, s2) ∧
    save_to_db env d s2 = (Return (), s3) ∧
    send_email env "admin@example.com" "User Input" u s3 = (Return (), s') ∧
    new_events s s'
    = new_events s s1 ++ new_events s1 s2 ++ new_events s2 s3 ++ new_events s3 s' ∧
    phases (new_events s s1) = [Capture] ∧
    phases (new_events s1 s2) = [Fetch] ∧
    phases (new_events s2 s3) = [Persist] ∧
    phases (new_events s3 s') = [Notify] ∧
    phases (new_events s s') = [Capture; Fetch; Persist; Notify].
Proof.
  intros H. unfold main, py_bind in H.
  destruct (get_user_input s) as [[u|e] s1] eqn:H1; [|done].
  destruct (get_data env s1) as [[d|e] s2] eqn:H2; [|done].
  destruct (save_to_db env d s2) as [[[]|e] s3] eqn:H3; [|done].
  exists u, s1, d, s2, s3. do 4 (split; [done|]).
  rewrite get_user_input_unfold in H1.
  destruct (stdin s) as [|u' rest]; [done|]. injection H1 as -> <-.
  rewrite get_data_unfold in H2. simpl in H2.
  destruct (http env URL) as [|status body]; [done|].
  destruct ((200 <=? status)%Z && (status <? 300)%Z); [|done].
  injection H2 as <- <-.
  rewrite save_to_db_unfold in H3. simpl in H3.
  destruct (db_config s) as [[cfg|]|]; [|done|done].
  destruct (db_connect_err env cfg); [done|].
  destruct (db_execute_err env _ _); [done|].
  destruct (db_commit_err env _ _); [done|].
  injection H3 as <-.
  rewrite send_email_unfold in H. simpl in H.
  destruct (exec env _ u) as [[rc err]|]; [|done].
  destruct (rc =? 0)%Z; [|done].
  injection H as <-.
  by events.
Qed.

(** A run in which every step succeeds. *)
Lemma main_runs_four_steps_in_order_witness :
  (main (env_ok hello) (loaded ["bob"])).1 = Return () ∧
  phases (new_events (loaded ["bob"]) (main (env_ok hello) (loaded ["bob"])).2)
  = [Capture; Fetch; Persist; Notify].
Proof.
  split; [vm_compute; reflexivity|].
  destruct (main_runs_four_steps_in_order (env_ok hello) (loaded ["bob"])
              (main (env_ok hello) (loaded ["bob"])).2)
    as (u & s1 & d & s2 & s3 & _ & _ & _ & _ & _ & _ & _ & _ & _ & H);
    [vm_compute; reflexivity | exact H].
Defined.

(** ** Failure and partial failure *)

(** C5: when the server refuses the connection, [save_to_db] raises a
    [DatabaseError] having sent no statement and with the table and the
    connection list as they were; [main] then ends in an exception with the
    table unchanged and without starting the mail program, and when capture
    and fetch succeeded the exception is that [DatabaseError]. *)
Theorem refused_connection_inserts_nothing env s cfg errno :
  db_config s = Some (ConfigDict cfg) →
  db_connect_err env cfg = Some errno →
  (∀ data,
     (save_to_db env data s).1 = Raise (DatabaseError errno) ∧
     exn_class (DatabaseError errno) = DatabaseErrorClass ∧
     db_rows (save_to_db env data s).2 = db_rows s ∧
     connections (save_to_db env data s).2 = connections s ∧
     executed (new_events s (save_to_db env data s).2) = []) ∧
  ((∃ e, (main env s).1 = Raise e) ∧
   db_rows (main env s).2 = db_rows s ∧
   count is_notify (new_events s (main env s).2) = 0 ∧
   mail_bodies (new_events s (main env s).2) = []) ∧
  (∀ u rest status body,
     stdin s = u :: rest →
     http env URL = HttpReply status body →
     (200 ≤ status < 300)%Z →
     (main env s).1 = Raise (DatabaseError errno)).
Proof.
  intros Hcfg Hconn. split; [|split].
  - intros data. rewrite save_to_db_unfold, Hcfg. simpl. rewrite Hconn. simpl.
    by events.
  - unfold main, py_bind. rewrite get_user_input_unfold.
    destruct (stdin s) as [|u rest]; simpl; [events; by eauto 10|].
    rewrite get_data_unfold. simpl.
    destruct (http env URL) as [|status body]; simpl; [events; by eauto 10|].
    destruct ((200 <=? status)%Z && (status <? 300)%Z); simpl;
      [|events; by eauto 10].
    rewrite save_to_db_unfold. simpl. rewrite Hcfg. simpl. rewrite Hconn. simpl.
    events. by eauto 10.
  - intros u rest status body Hin Hhttp Hok.
    unfold main, py_bind. rewrite get_user_input_unfold, Hin.
    rewrite get_data_unfold. simpl. rewrite Hhttp, (status_ok _ Hok).
    rewrite save_to_db_unfold. simpl. rewrite Hcfg. simpl. by rewrite Hconn.
Qed.

(** The server answers 1045 (access denied) to the connection. *)
Lemma refused_connection_inserts_nothing_witness :
  db_config (loaded ["bob"]) = Some (ConfigDict sample_config) ∧
  db_connect_err env_connect_fails sample_config = Some 1045%Z ∧
  (main env_connect_fails (loaded ["bob"])).1 = Raise (DatabaseError 1045) ∧
  db_rows (main env_connect_fails (loaded ["bob"])).2 = [] ∧
  mail_bodies (new_events (loaded ["bob"]) (main env_connect_fails (loaded ["bob"])).2) = [].
Proof.
  split; [vm_compute; reflexivity|]. split; [vm_compute; reflexivity|].
  destruct (refused_connection_inserts_nothing env_connect_fails (loaded ["bob"])
              sample_config 1045)
    as (_ & (_ & Hrows & _ & Hmail) & Hraise);
    [vm_compute; reflexivity | vm_compute; reflexivity |].
  split; [|exact (conj Hrows Hmail)].
  apply (Hraise "bob" [] 200%Z []);
    [vm_compute; reflexivity | vm_compute; reflexivity | lia].
Defined.

(** C6: the run the claim describes, for any reply body.  With a line [u]
    on standard input, a success reply and a server that accepts, [main]
    adds exactly one row, [column2] the literal 'Another Value', and then
    starts the mail program with [u] as body.  The value it binds to
    [column1] is the response object [get_data] returned, which is closed
    and reads as empty whatever [body] was; it is never the payload.
    [save_to_db] itself binds whatever it is given. *)
Theorem run_binds_response_object_not_payload env s cfg u rest status body :
  db_config s = Some (ConfigDict cfg) →
  stdin s = u :: rest →
  http env URL = HttpReply status body →
  (200 ≤ status < 300)%Z →
  db_connect_err env cfg = None →
  let h := length (responses s) in
  db_execute_err env (db_rows s) (inserted_row (PyResponse h)) = None →
  db_commit_err env (db_rows s) [inserted_row (PyResponse h)] = None →
  let s' := (main env s).2 in
  executed (new_events s s') = [(QUERY, [PyResponse h])] ∧
  PyResponse h ≠ PyBytes body ∧
  responses s' !! h = Some {| resp_body := body; resp_closed := true |} ∧
  response_read h s' = [] ∧
  (∃ row, db_rows s' = db_rows s ++ [row] ∧
          row_table row = "mytable" ∧
          row_cells row !! 1 = Some ("column2", PyStr "Another Value")) ∧
  mail_bodies (new_events s s') = [(MAIL_ARGV, u)] ∧
  (∀ payload,
     executed (new_events s (save_to_db env payload s).2) = [(QUERY, [payload])]).
Proof.
  intros Hcfg Hin Hhttp Hok Hconn h Hexec Hcommit. simpl.
  split; [|split; [done|]].
  - unfold main, py_bind. rewrite get_user_input_unfold, Hin.
    rewrite get_data_unfold. simpl. rewrite Hhttp, (status_ok _ Hok).
    rewrite save_to_db_unfold. simpl. rewrite Hcfg. simpl. rewrite Hconn.
    fold h. rewrite Hexec, Hcommit.
    rewrite send_email_unfold. simpl.
    destruct (exec env _ u) as [[rc err]|]; simpl; by events.
  - unfold main, py_bind. rewrite get_user_input_unfold, Hin.
    rewrite get_data_unfold. simpl. rewrite Hhttp, (status_ok _ Hok).
    rewrite save_to_db_unfold. simpl. rewrite Hcfg. simpl. rewrite Hconn.
    fold h. rewrite Hexec, Hcommit.
    rewrite send_email_unfold. simpl. fold MAIL_ARGV.
    unfold response_read.
    destruct (exec env MAIL_ARGV u) as [[rc err]|]; simpl; events;
      subst h; rewrite lookup_fresh; simpl;
      (repeat split; [by eexists | ]);
      intros payload; rewrite save_to_db_executed, Hcfg; by rewrite Hconn.
Qed.

(** The claim's run: the empty line, the empty body.  The parameter bound
    to [column1] is the response object, as it is for the body [hello]. *)
Lemma run_binds_response_object_not_payload_witness :
  executed (new_events (loaded [""]) (main (env_ok []) (loaded [""])).2)
    = [(QUERY, [PyResponse 0])] ∧
  executed (new_events (loaded [""]) (main (env_ok hello) (loaded [""])).2)
    = [(QUERY, [PyResponse 0])] ∧
  mail_bodies (new_events (loaded [""]) (main (env_ok []) (loaded [""])).2)
    = [(MAIL_ARGV, "")].
Proof.
  destruct (run_binds_response_object_not_payload (env_ok []) (loaded [""])
              sample_config "" [] 200 [])
    as (Hex & _ & _ & _ & _ & Hmail & _);
    [vm_compute; reflexivity | vm_compute; reflexivity | vm_compute; reflexivity
    | lia | vm_compute; reflexivity | vm_compute; reflexivity
    | vm_compute; reflexivity |].
  split; [exact Hex|]. split; [vm_compute; reflexivity | exact Hmail].
Defined.

(** C8: once [save_to_db] has returned, its row is in the table, and the
    rest of [main] (the notification, whatever its outcome) leaves the table
    and the connections as persistence left them; in particular when the
    mail program is not found, [main] raises with the row still there. *)
Theorem failed_notification_keeps_row env s u s1 d s2 s3 :
  get_user_input s = (Return u, s1) →
  get_data env s1 = (Return d, s2) →
  save_to_db env d s2 = (Return (), s3) →
  db_rows s3 = db_rows s ++ [inserted_row d] ∧
  db_rows (main env s).2 = db_rows s3 ∧
  connections (main env s).2 = connections s3 ∧
  executed (new_events s3 (main env s).2) = [] ∧
  (exec env MAIL_ARGV u = None →
   (main env s).1 = Raise (FileNotFoundError "mail") ∧
   exn_class (FileNotFoundError "mail") = SpawnError ∧
   db_rows (main env s).2 = db_rows s ++ [inserted_row d]).
Proof.
  intros H1 H2 H3.
  assert (Hrows : db_rows s3 = db_rows s ++ [inserted_row d]).
  { rewrite get_user_input_unfold in H1.
    destruct (stdin s) as [|u' rest]; [done|]. injection H1 as -> <-.
    rewrite get_data_unfold in H2. simpl in H2.
    destruct (http env URL) as [|status body]; [done|].
    destruct ((200 <=? status)%Z && (status <? 300)%Z); [|done].
    injection H2 as <- <-.
    rewrite save_to_db_unfold in H3. simpl in H3.
    destruct (db_config s) as [[cfg|]|]; [|done|done].
    destruct (db_connect_err env cfg); [done|].
    destruct (db_execute_err env _ _); [done|].
    destruct (db_commit_err env _ _); [done|].
    by injection H3 as <-. }
  unfold main, py_bind. rewrite H1, H2, H3.
  destruct (send_email_frame env "admin@example.com" "User Input" u s3)
    as (_ & _ & _ & Hc & _ & Hr & l & Ht & _ & Hex & _).
  simpl in Hc, Hr, Ht.
  split; [done|]. split; [done|]. split; [done|]. split.
  { by rewrite (new_events_app _ _ _ Ht). }
  intros Hexec. rewrite Hr, Hrows. split; [|done].
  rewrite send_email_unfold. simpl. fold MAIL_ARGV. by rewrite Hexec.
Qed.

(** [mail] is not on the search path. *)
Lemma failed_notification_keeps_row_witness :
  exec env_no_mail MAIL_ARGV "bob" = None ∧
  (main env_no_mail (loaded ["bob"])).1 = Raise (FileNotFoundError "mail") ∧
  db_rows (main env_no_mail (loaded ["bob"])).2 = [inserted_row (PyResponse 0)].
Proof.
  split; [vm_compute; reflexivity|].
  destruct (failed_notification_keeps_row env_no_mail (loaded ["bob"]) "bob"
              (get_user_input (loaded ["bob"])).2
              (PyResponse 0)
              (get_data env_no_mail (get_user_input (loaded ["bob"])).2).2
              (save_to_db env_no_mail (PyResponse 0)
                 (get_data env_no_mail (get_user_input (loaded ["bob"])).2).2).2)
    as (_ & _ & _ & _ & H);
    [vm_compute; reflexivity | vm_compute; reflexivity | vm_compute; reflexivity |].
  destruct H as (Hraise & _ & Hrows); [vm_compute; reflexivity|].
  exact (conj Hraise Hrows).
Defined.

(** ** The configuration record *)








(** No configuration file: the run stops at [open]. *)
Example script_without_config_file :
  script {| fs := λ _, None; http := http (env_ok []);
            db_connect_err := λ _, None; db_execute_err := λ _ _, None;
            db_commit_err := λ _ _, None; exec := exec (env_ok []) |}
         (start ["bob"])
  = (Raise (FileNotFoundError "db_config.json"),
     emit (EvOpen "db_config.json") (start ["bob"])).
Proof. vm_compute. reflexivity. Qed.

(** ** Where the user's input goes *)




(** Two names, one of them hostile: the same row. *)
Example two_inputs_same_row :
  db_rows (main (env_ok hello) (loaded ["alice"])).2
  = db_rows (main (env_ok hello) (loaded ["x'); DROP TABLE mytable; --"])).2.
Proof. vm_compute. reflexivity. Qed.

(** * Further properties of the script *)

(** One step along a path of the script: the next call is replaced by its
    path-by-path description, or the next answer of the world is split
    into its cases. *)
Ltac path_step :=
  simpl;
  match goal with
  | |- context [load_db_config ?e ?x] => rewrite (load_db_config_unfold e x)
  | |- context [get_user_input ?x] => rewrite (get_user_input_unfold x)
  | |- context [get_data ?e ?x] => rewrite (get_data_unfold e x)
  | |- context [save_to_db ?e ?d ?x] => rewrite (save_to_db_unfold e d x)
  | |- context [send_email ?e ?a ?b ?c ?x] => rewrite (send_email_unfold e a b c x)
  | |- context [match fs ?e ?p with _ => _ end] =>
    destruct (fs e p) as [[|?m|]|] eqn:?
  | |- context [match stdin ?x with _ => _ end] =>
    destruct (stdin x) as [|?u ?rest] eqn:?
  | |- context [match http ?e ?u with _ => _ end] =>
    destruct (http e u) as [|?status ?body] eqn:?
  | |- context [match db_config ?x with _ => _ end] =>
    destruct (db_config x) as [[?cfg|]|] eqn:?
  | |- context [match db_connect_err ?e ?c with _ => _ end] =>
    destruct (db_connect_err e c) eqn:?
  | |- context [match db_execute_err ?e ?r ?w with _ => _ end] =>
    destruct (db_execute_err e r w) eqn:?
  | |- context [match db_commit_err ?e ?r ?w with _ => _ end] =>
    destruct (db_commit_err e r w) eqn:?
  | |- context [match exec ?e ?a ?b with _ => _ end] =>
    destruct (exec e a b) as [[?rc ?err]|] eqn:?
  | |- context [if ?b then _ else _] => destruct b eqn:?
  end.

Ltac paths := unfold script, main, py_bind; repeat path_step; simpl.

(** ** Standard input *)

(** X1: with nothing to read on standard input, [main] prompts, raises
    [EOFError] and does nothing else: no request, no connection, no row, no
    mail. *)
Theorem main_at_end_of_input env s :
  stdin s = [] →
  main env s = (Raise EOFError, emit (EvPrompt "Enter your name: ") s) ∧
  exn_class EOFError = InputError ∧
  phases (new_events s (main env s).2) = [Capture].
Proof.
  intros Hin. unfold main, py_bind. rewrite get_user_input_unfold, Hin.
  simpl. by events.
Qed.

Lemma main_at_end_of_input_witness :
  main (env_ok hello) (loaded [])
  = (Raise EOFError, emit (EvPrompt "Enter your name: ") (loaded [])).
Proof.
  destruct (main_at_end_of_input (env_ok hello) (loaded [])) as (H & _);
    [vm_compute; reflexivity | exact H].
Defined.

(** X2: on every path [main] takes exactly the first line off standard
    input (nothing when there is none) and leaves the rest unread; a run
    that stops at the configuration file reads nothing. *)
Theorem run_reads_one_line env s :
  stdin (main env s).2 = tail (stdin s) ∧
  stdin (script env s).2
  = match fs env "db_config.json" with
    | Some (JsonObject _) | Some JsonOther => tail (stdin s)
    | Some NotJson | None => stdin s
    end.
Proof. split; paths; done. Qed.

(** ** Remote fetch, on every path *)



(** X4: when the line was read and the fetch fails, the endpoint giving no
    reply or a status in 400-599, [main] raises a network error after the
    capture and fetch steps only: no connection is asked for, no statement
    sent, no row added, no mail program started. *)
Theorem fetch_failure_stops_the_run env s u rest :
  stdin s = u :: rest →
  (http env URL = Unreachable ∨
   ∃ status body, http env URL = HttpReply status body ∧
                  (400 ≤ status < 600)%Z) →
  (∃ e, (main env s).1 = Raise e ∧ exn_class e = NetworkError) ∧
  phases (new_events s (main env s).2) = [Capture; Fetch] ∧
  connects (new_events s (main env s).2) = [] ∧
  executed (new_events s (main env s).2) = [] ∧
  mail_bodies (new_events s (main env s).2) = [] ∧
  db_rows (main env s).2 = db_rows s ∧
  connections (main env s).2 = connections s ∧
  responses (main env s).2 = responses s.
Proof.
  intros Hin Hhttp. unfold main, py_bind.
  rewrite get_user_input_unfold, Hin. rewrite get_data_unfold. simpl.
  destruct Hhttp as [-> | (status & body & -> & Hst)]; simpl.
  - events. by eauto 10.
  - replace ((200 <=? status)%Z && (status <? 300)%Z) with false
      by (symmetry; apply andb_false_iff; right; apply Z.ltb_ge; lia).
    simpl. events. by eauto 10.
Qed.

Lemma fetch_failure_stops_the_run_witness :
  (main env_not_found (loaded ["bob"])).1 = Raise (HTTPError URL 404) ∧
  phases (new_events (loaded ["bob"]) (main env_not_found (loaded ["bob"])).2)
  = [Capture; Fetch] ∧
  db_rows (main env_not_found (loaded ["bob"])).2 = [].
Proof.
  split; [vm_compute; reflexivity|].
  destruct (fetch_failure_stops_the_run env_not_found (loaded ["bob"]) "bob" [])
    as (_ & Hphases & _ & _ & _ & Hrows & _);
    [ vm_compute; reflexivity
    | right; exists 404%Z, []; split; [vm_compute; reflexivity | lia]
    | exact (conj Hphases Hrows) ].
Defined.

(** ** Persistence, on every path *)

(** X5: the table changes exactly when [save_to_db] returns: then it holds
    one more row, the payload in [column1]; when the call raises (at the
    configuration, the connection, the statement or the commit) the table
    is as before.  Either way the connections and cursors that existed
    before the call, the responses and the unread input are untouched. *)
Theorem save_to_db_row_exactly_on_return env data s :
  let s' := (save_to_db env data s).2 in
  db_rows s' = match (save_to_db env data s).1 with
               | Return _ => db_rows s ++ [inserted_row data]
               | Raise _ => db_rows s
               end ∧
  take (length (connections s)) (connections s') = connections s ∧
  take (length (cursors s)) (cursors s') = cursors s ∧
  responses s' = responses s ∧
  stdin s' = stdin s.
Proof.
  simpl. rewrite save_to_db_unfold.
  destruct (db_config s) as [[cfg|]|]; simpl;
    [|by rewrite !take_ge|by rewrite !take_ge].
  destruct (db_connect_err env cfg); simpl; [by rewrite !take_ge|].
  destruct (db_execute_err env _ _); simpl; [by rewrite !take_app_length|].
  destruct (db_commit_err env _ _); simpl; by rewrite !take_app_length.
Qed.

(** A refused commit: the statement was executed, and the table is as
    before. *)
Example save_to_db_commit_refused :
  (save_to_db env_commit_fails (PyBytes hello) (loaded [])).1
    = Raise (DatabaseError 1213) ∧
  executed (new_events (loaded [])
              (save_to_db env_commit_fails (PyBytes hello) (loaded [])).2)
    = [(QUERY, [PyBytes hello])] ∧
  db_rows (save_to_db env_commit_fails (PyBytes hello) (loaded [])).2 = [].
Proof. vm_compute. done. Qed.

(** X6: two calls of [save_to_db] that both return add their two rows in
    call order, each through a connection and a cursor of its own, all four
    closed at the end; each call sends the same query text with its own
    payload. *)
Theorem save_to_db_twice env d1 d2 s s1 s2 :
  save_to_db env d1 s = (Return (), s1) →
  save_to_db env d2 s1 = (Return (), s2) →
  let c := length (connections s) in
  let k := length (cursors s) in
  db_rows s2 = db_rows s ++ [inserted_row d1; inserted_row d2] ∧
  connections s2
  = connections s ++ [{| conn_open := false; conn_pending := [] |};
                      {| conn_open := false; conn_pending := [] |}] ∧
  cursors s2
  = cursors s ++ [{| cur_conn := c; cur_open := false |};
                  {| cur_conn := S c; cur_open := false |}] ∧
  executed (new_events s s2) = [(QUERY, [d1]); (QUERY, [d2])] ∧
  connects (new_events s s2) = connects (new_events s s1) ++ connects (new_events s1 s2).
Proof.
  intros H1 H2. rewrite save_to_db_unfold in H1.
  destruct (db_config s) as [[cfg|]|] eqn:Hcfg; [|done|done]. simpl in H1.
  destruct (db_connect_err env cfg) eqn:Hconn; [done|].
  destruct (db_execute_err env _ _); [done|].
  destruct (db_commit_err env _ _); [done|].
  injection H1 as <-.
  rewrite save_to_db_unfold in H2. simpl in H2. rewrite Hcfg, Hconn in H2.
  destruct (db_execute_err env _ _); [done|].
  destruct (db_commit_err env _ _); [done|].
  injection H2 as <-. simpl. events. simpl.
  rewrite !length_app, <- !app_assoc. simpl.
  by rewrite !Nat.add_1_r.
Qed.

Lemma save_to_db_twice_witness :
  db_rows (save_to_db (env_ok []) (PyStr "b")
             (save_to_db (env_ok []) (PyStr "a") (loaded [])).2).2
  = [inserted_row (PyStr "a"); inserted_row (PyStr "b")].
Proof.
  destruct (save_to_db_twice (env_ok []) (PyStr "a") (PyStr "b") (loaded [])
              (save_to_db (env_ok []) (PyStr "a") (loaded [])).2
              (save_to_db (env_ok []) (PyStr "b")
                 (save_to_db (env_ok []) (PyStr "a") (loaded [])).2).2)
    as (H & _); [vm_compute; reflexivity | vm_compute; reflexivity | exact H].
Defined.

(** ** Notification, on every path *)



(** ** The whole run *)

(** X9: a connection is only ever asked for with the record read from
    [db_config.json] in this run, whatever [db_config] held before, and at
    most once; and the script never fails on an undefined [db_config]: the
    load comes first and stops the run when it fails. *)
Theorem script_connects_with_file_record env s :
  match fs env "db_config.json" with
  | Some (JsonObject m) =>
    connects (new_events s (script env s).2) = [] ∨
    connects (new_events s (script env s).2) = [m]
  | _ => connects (new_events s (script env s).2) = []
  end ∧
  match (script env s).1 with
  | Raise (NameError _) => False
  | _ => True
  end.
Proof. split; paths; events; auto. Qed.

(** Without the module body, [main] reaches [save_to_db] with [db_config]
    undefined. *)
Example main_without_module_body :
  (main (env_ok hello) (start ["bob"])).1 = Raise (NameError "db_config").
Proof. vm_compute. reflexivity. Qed.

(** X10: on every path, failing ones included, the steps of a run start in
    the order start-up, capture, fetch, persistence, notification, none is
    taken up again and none runs after one that did not: the steps of the
    trace are an initial part of that list. *)
Theorem script_steps_in_order_on_every_path env s :
  phases (new_events s (script env s).2)
  `prefix_of` [Startup; Capture; Fetch; Persist; Notify].
Proof. paths; events; simpl; by eexists. Qed.

Example script_steps_when_statement_refused :
  phases (new_events (start ["bob"]) (script env_execute_fails (start ["bob"])).2)
  = [Startup; Capture; Fetch; Persist].
Proof. vm_compute. reflexivity. Qed.
